(** * dcos-checks: the clock synchronisation check (cmd/time_check.go)

    A shallow embedding of [TimeCheck.Run] together with the parts of the Go
    runtime it relies on: wrap-around [int64] arithmetic, [time.Duration] and
    its [String] method, and [errors.Wrap] of github.com/pkg/errors. *)

From Stdlib Require Import ZArith String Ascii List Lia Bool.
Import ListNotations.

Local Open Scope string_scope.
Local Open Scope Z_scope.

(** ** Machine integers *)

(** Go's [int64]: a value in [-2^63, 2^63), every operation reduced modulo
    [2^64]. *)
Module Int64.

Definition min_int : Z := - 2 ^ 63.
Definition max_int : Z := 2 ^ 63 - 1.

Definition in_range (z : Z) : Prop := min_int <= z <= max_int.

Definition wrap (z : Z) : Z := (z + 2 ^ 63) mod 2 ^ 64 - 2 ^ 63.

(** The conversion [int64(x)]. *)
Definition of_Z (z : Z) : Z := wrap z.

Definition sub (a b : Z) : Z := wrap (a - b).
Definition mul (a b : Z) : Z := wrap (a * b).

End Int64.

(** Go's [uint64], used by the duration formatter. *)
Module Uint64.

Definition wrap (z : Z) : Z := z mod 2 ^ 64.

(** The conversion [uint64(x)]. *)
Definition of_Z (z : Z) : Z := wrap z.

(** Unary minus on an unsigned value. *)
Definition neg (u : Z) : Z := wrap (- u).

End Uint64.

(** ** Package time: durations and their textual form *)

Module time.

(** [type Duration int64], a count of nanoseconds. *)
Definition Duration : Type := Z.

Definition Nanosecond : Duration := 1.
Definition Microsecond : Duration := 1000 * Nanosecond.
Definition Millisecond : Duration := 1000 * Microsecond.
Definition Second : Duration := 1000 * Millisecond.

(** [byte(digit) + '0'] *)
Definition digit_char (d : Z) : ascii := ascii_of_nat (Z.to_nat d + 48).

(** The formatter fills a 32-byte buffer from its end and returns the
    offset of the first byte written; the embedding keeps the written tail
    as a string and prepends to it. *)

(** The loop of [fmtFrac]: [prec] rounds, each dropping the last decimal
    digit of [v] and printing it once a non-zero digit has been seen. *)
Fixpoint fmtFrac_loop (prec : nat) (buf : string) (v : Z) (print : bool)
  : string * Z * bool :=
  match prec with
  | O => (buf, v, print)
  | S prec' =>
      let digit := v mod 10 in
      let print := print || negb (digit =? 0) in
      let buf := if print then String (digit_char digit) buf else buf in
      fmtFrac_loop prec' buf (v / 10) print
  end.

(** [fmtFrac(buf, v, prec)]: the fraction of [v / 10^prec] without its
    trailing zeros, and the value [v / 10^prec]. *)
Definition fmtFrac (buf : string) (v : Z) (prec : nat) : string * Z :=
  let '(buf, v, print) := fmtFrac_loop prec buf v false in
  (if print then String "." buf else buf, v).

(** The loop [for v > 0] of [fmtInt], bounded by [fuel] rounds. *)
Fixpoint fmtInt_loop (fuel : nat) (buf : string) (v : Z) : string :=
  match fuel with
  | O => buf
  | S fuel' =>
      if v >? 0
      then fmtInt_loop fuel' (String (digit_char (v mod 10)) buf) (v / 10)
      else buf
  end.

(** Each round divides [v] by ten, so one round per binary digit of [v] is
    always enough (see [fmtInt_loop_fuel]). *)
Definition fmtInt_fuel (v : Z) : nat := S (Z.to_nat (Z.log2 v)).

(** [fmtInt(buf, v)]: the decimal digits of [v]. *)
Definition fmtInt (buf : string) (v : Z) : string :=
  if v =? 0 then String "0" buf else fmtInt_loop (fmtInt_fuel v) buf v.

(** U+00B5, the micro sign, in UTF-8: 0xC2 0xB5. *)
Definition micro_sign (tail : string) : string :=
  String (ascii_of_nat 194) (String (ascii_of_nat 181) tail).

(** [Duration.String]: "72h3m0.5s"; below one second a smaller unit is
    chosen so that the leading digit is not zero; zero is "0s". *)
Definition Duration_String (d : Duration) : string :=
  let u := Uint64.of_Z d in
  let neg := d <? 0 in
  let u := if neg then Uint64.neg u else u in
  let buf :=
    if u <? Uint64.of_Z Second then
      if u =? 0 then "0s"
      else
        let '(buf, prec) :=
          if u <? Uint64.of_Z Microsecond then ("ns", 0%nat)
          else if u <? Uint64.of_Z Millisecond then (micro_sign "s", 3%nat)
          else ("ms", 6%nat) in
        let '(buf, u) := fmtFrac buf u prec in
        fmtInt buf u
    else
      let '(buf, u) := fmtFrac "s" u 9 in
      (* u is now integer seconds *)
      let buf := fmtInt buf (u mod 60) in
      let u := u / 60 in
      (* u is now integer minutes *)
      if u >? 0 then
        let buf := fmtInt (String "m" buf) (u mod 60) in
        let u := u / 60 in
        (* u is now integer hours *)
        if u >? 0 then fmtInt (String "h" buf) u else buf
      else buf in
  if neg then String "-" buf else buf.

(** [Duration * Duration], an [int64] product. *)
Definition mul (a b : Duration) : Duration := Int64.mul a b.

End time.

(** ** Package github.com/pkg/errors *)

Module errors.

(** Go's [error] values as far as the check can tell them apart: an error
    from outside the package is known by the text its [Error] method
    returns; [withMessage] and [withStack] are the two wrappers of the
    package.  The program counters recorded by [withStack] belong to the
    running process and are left out.  The nil error is [None]. *)
Inductive error : Type :=
| opaque (text : string)
| withMessage (cause : error) (msg : string)
| withStack (err : error).

(** The [Error] methods: [w.msg + ": " + w.cause.Error()] for
    [withMessage]; [withStack] embeds the error and inherits its text. *)
Fixpoint Error (e : error) : string :=
  match e with
  | opaque text => text
  | withMessage cause msg => msg ++ ": " ++ Error cause
  | withStack err => Error err
  end.

(** [Cause] follows the chain of wrappers down to the first error that
    has no [Cause] method. *)
Fixpoint Cause (e : error) : error :=
  match e with
  | opaque _ => e
  | withMessage cause _ => Cause cause
  | withStack err => Cause err
  end.

(** [Wrap(err, message)]: nil for a nil [err], else [err] annotated with
    [message] and a stack trace. *)
Definition Wrap (err : option error) (message : string) : option error :=
  match err with
  | None => None
  | Some e => Some (withStack (withMessage e message))
  end.

End errors.

(** ** Package syscall *)

Module syscall.

(** [struct Timeval] and [struct Timex] as linux/amd64 lays them out
    (padding left out).  [Esterror] is an [int64], [Status] an [int32]. *)
Record Timeval : Type := mkTimeval { Sec : Z; Usec : Z }.

Record Timex : Type := mkTimex {
  Modes : Z;
  Offset : Z;
  Freq : Z;
  Maxerror : Z;
  Esterror : Z;
  Status : Z;
  Constant : Z;
  Precision : Z;
  Tolerance : Z;
  Time : Timeval;
  Tick : Z;
  Ppsfreq : Z;
  Jitter : Z;
  Shift : Z;
  Stabil : Z;
  Jitcnt : Z;
  Calcnt : Z;
  Errcnt : Z;
  Stbcnt : Z;
  Tai : Z
}.

(** The composite literal [syscall.Timex{}]. *)
Definition zero_Timex : Timex :=
  mkTimex 0 0 0 0 0 0 0 0 0 (mkTimeval 0 0) 0 0 0 0 0 0 0 0 0 0.

End syscall.

(** ** Package cmd: the time check *)

Module cmd.

Import syscall.

(** STA_UNSYNC of linux/timex.h. *)
Definition staUnsync : Z := 0x0040.

(** [int64(time.Microsecond * 100000)], commented "100 millisecond" in the
    source. *)
Definition maxEstErrorUs : Z := Int64.of_Z (time.Microsecond * 100000).

(** Modelled from the spec: the constants [statusOK], [statusFailure] and
    [statusUnknown] returned by [Run] are declared in another file of the
    package; the spec gives the verdict as one of three mutually exclusive
    outcomes, OK, Failure and Unknown. *)
Inductive Verdict : Type := statusOK | statusFailure | statusUnknown.

(** [runAdjtimex] receives a pointer to the buffer, fills it and returns a
    state and an error: the buffer is threaded through. *)
Record TimeCheck : Type := mkTimeCheck {
  Name : string;
  runAdjtimex : Timex -> Timex * Z * option errors.error
}.

(** [ID] returns a check ID. *)
Definition ID (t : TimeCheck) : string := Name t.

(** [NewTimeCheck] returns a new initialized instance of [TimeCheck].  The
    function it binds, [syscall.Adjtimex], is the kernel's entry point and
    comes in as [Adjtimex]. *)
Definition NewTimeCheck
    (Adjtimex : Timex -> Timex * Z * option errors.error) (name : string)
  : TimeCheck :=
  mkTimeCheck name Adjtimex.

(** [diff := int64(tBuf.Esterror) - maxEstErrorUs] *)
Definition diff (tBuf : Timex) : Z :=
  Int64.sub (Int64.of_Z (Esterror tBuf)) maxEstErrorUs.

(** [fmt.Sprintf] of the magnitude message; [%s] prints a [Duration]
    through its [String] method. *)
Definition magnitude_message (d : time.Duration) : string :=
  "Clock is less stable than allowed. Max estimated error exceeded by: "
    ++ time.Duration_String d.

Definition unsync_message : string :=
  "Clock is out of sync / in unsync state. Must be synchronized for proper operation.".

Section Run.

(** [context.Context] and [CLIConfigFlags] are declared elsewhere; [Run]
    never looks at its two arguments.  [cfg] is a pointer and may be
    nil. *)
Variables context_Context CLIConfigFlags : Type.

(** [Run] executes the check. *)
Definition Run (t : TimeCheck) (ctx : context_Context)
    (cfg : option CLIConfigFlags) : string * Verdict * option errors.error :=
  let tBuf := zero_Timex in
  (* intentionally ignore status *)
  let '(tBuf, _, err) := runAdjtimex t tBuf in
  match err with
  | Some _ =>
      ("", statusUnknown,
       errors.Wrap err "unable to make a system call adjtimex")
  | None =>
      (* This is to check if NTP thinks the clock is unstable *)
      let diff := diff tBuf in
      if diff >? 0 then
        (magnitude_message (time.mul diff time.Microsecond),
         statusFailure, None)
      else if Z.land (Status tBuf) staUnsync >? 0 then
        (unsync_message, statusFailure, None)
      else ("Clock is synced", statusOK, None)
  end.

End Run.

Arguments Run {context_Context CLIConfigFlags} t ctx cfg.

(** Fixtures: a kernel answer with the two fields the check reads, and a
    check whose acquisition function always gives the same answer. *)
Definition snapshot (esterror status : Z) : Timex :=
  mkTimex 0 0 0 0 esterror status 0 0 0 (mkTimeval 0 0) 0 0 0 0 0 0 0 0 0 0.

Definition stub (tBuf : Timex) (state : Z) (err : option errors.error)
  : TimeCheck :=
  mkTimeCheck "Check clock synchronization" (fun _ => (tBuf, state, err)).

End cmd.

(** ** Reading decimal digits

    The yardstick for the digits that [time.fmtInt] writes: the characters
    '0' to '9' and the number a string of them denotes in base ten. *)

Module Digits.

Definition is_digit (c : ascii) : bool :=
  ((48 <=? nat_of_ascii c) && (nat_of_ascii c <=? 57))%nat.

Definition digit_value (c : ascii) : Z := Z.of_nat (nat_of_ascii c) - 48.

Fixpoint all_digits (s : string) : bool :=
  match s with
  | EmptyString => true
  | String c s' => is_digit c && all_digits s'
  end.

Fixpoint value_from (acc : Z) (s : string) : Z :=
  match s with
  | EmptyString => acc
  | String c s' => value_from (acc * 10 + digit_value c) s'
  end.

Definition value (s : string) : Z := value_from 0 s.

End Digits.

(** * Properties *)

Import syscall cmd.

(** ** Wrap-around arithmetic *)

Section Int64Facts.

Lemma Int64_wrap_id (z : Z) : Int64.in_range z -> Int64.wrap z = z.
Proof.
  unfold Int64.in_range, Int64.min_int, Int64.max_int, Int64.wrap.
  intros Hz. rewrite Z.mod_small; lia.
Qed.

(** One step below the range comes back at the top. *)
Lemma Int64_wrap_below (z : Z) :
  Int64.min_int - 2 ^ 63 <= z < Int64.min_int -> Int64.wrap z = z + 2 ^ 64.
Proof.
  unfold Int64.min_int, Int64.wrap. intros Hz.
  replace (z + 2 ^ 63) with (z + 2 ^ 64 + 2 ^ 63 + (-1) * 2 ^ 64) by lia.
  rewrite Z.mod_add by lia. rewrite Z.mod_small; lia.
Qed.

Lemma Int64_wrap_range (z : Z) : Int64.in_range (Int64.wrap z).
Proof.
  unfold Int64.in_range, Int64.min_int, Int64.max_int, Int64.wrap.
  pose proof (Z.mod_pos_bound (z + 2 ^ 63) (2 ^ 64)). lia.
Qed.

Lemma Int64_wrap_fixpoint (z : Z) : Int64.wrap z = z <-> Int64.in_range z.
Proof.
  split; [intros <-; apply Int64_wrap_range | apply Int64_wrap_id].
Qed.

End Int64Facts.

(** ** The duration formatter *)

Section Formatter.

(** With [v] below [2^fuel] the loop of [fmtInt] leaves by its own test:
    the fuel is never what stops it. *)
Lemma fmtInt_loop_fuel (f1 : nat) :
  forall (f2 : nat) (buf : string) (v : Z),
    v < 2 ^ Z.of_nat f1 -> v < 2 ^ Z.of_nat f2 ->
    time.fmtInt_loop f1 buf v = time.fmtInt_loop f2 buf v.
Proof.
  induction f1 as [|f1 IH]; intros f2 buf v H1 H2.
  - change (2 ^ Z.of_nat 0) with 1 in H1.
    destruct f2 as [|f2]; [reflexivity|].
    simpl. destruct (v >? 0) eqn:Hv; [lia | reflexivity].
  - destruct f2 as [|f2].
    + change (2 ^ Z.of_nat 0) with 1 in H2.
      simpl. destruct (v >? 0) eqn:Hv; [lia | reflexivity].
    + simpl. destruct (v >? 0) eqn:Hv; [|reflexivity].
      rewrite Nat2Z.inj_succ, Z.pow_succ_r in H1, H2 by lia.
      assert (v / 10 <= v / 2) by (apply Z.div_le_compat_l; lia).
      assert (v / 2 < 2 ^ Z.of_nat f1) by (apply Z.div_lt_upper_bound; lia).
      assert (v / 2 < 2 ^ Z.of_nat f2) by (apply Z.div_lt_upper_bound; lia).
      apply IH; lia.
Qed.

Lemma fmtInt_fuel_enough (v : Z) : 0 < v -> v < 2 ^ Z.of_nat (time.fmtInt_fuel v).
Proof.
  intros Hv. unfold time.fmtInt_fuel.
  rewrite Nat2Z.inj_succ, Z2Nat.id by apply Z.log2_nonneg.
  apply Z.log2_spec, Hv.
Qed.

(** [fmtInt] as the source's loop runs: the last digit goes in front of
    the buffer and the loop goes on with the quotient until it is zero. *)
Lemma fmtInt_unfold (buf : string) (v : Z) :
  0 < v ->
  time.fmtInt buf v =
    let buf' := String (time.digit_char (v mod 10)) buf in
    if v / 10 =? 0 then buf' else time.fmtInt buf' (v / 10).
Proof.
  intros Hv. unfold time.fmtInt at 1.
  replace (v =? 0) with false by (symmetry; apply Z.eqb_neq; lia).
  pose proof (fmtInt_fuel_enough v Hv) as Hfuel.
  unfold time.fmtInt_fuel in *. cbn [time.fmtInt_loop].
  replace (v >? 0) with true by (symmetry; apply Z.gtb_lt; lia).
  cbv zeta.
  assert (0 <= v / 10) by (apply Z.div_pos; lia).
  destruct (v / 10 =? 0) eqn:Hq.
  - apply Z.eqb_eq in Hq. rewrite Hq.
    destruct (Z.to_nat (Z.log2 v)); simpl; reflexivity.
  - apply Z.eqb_neq in Hq. unfold time.fmtInt.
    replace (v / 10 =? 0) with false by (symmetry; apply Z.eqb_neq; lia).
    apply fmtInt_loop_fuel.
    + rewrite Nat2Z.inj_succ, Z.pow_succ_r in Hfuel by lia.
      rewrite Z2Nat.id in * by apply Z.log2_nonneg.
      assert (v / 10 <= v / 2) by (apply Z.div_le_compat_l; lia).
      assert (v / 2 < 2 ^ Z.log2 v) by (apply Z.div_lt_upper_bound; lia).
      lia.
    + apply fmtInt_fuel_enough. lia.
Qed.

Lemma Duration_String_samples :
  time.Duration_String 0 = "0s"
  /\ time.Duration_String 100000000 = "100ms"
  /\ time.Duration_String 100500000 = "100.5ms"
  /\ time.Duration_String (-100000000000) = "-1m40s"
  /\ time.Duration_String Int64.max_int = "2562047h47m16.854775807s"
  /\ time.Duration_String Int64.min_int = "-2562047h47m16.854775808s".
Proof. repeat split; vm_compute; reflexivity. Qed.

End Formatter.

(** ** The constants and the two tests of [Run] *)

Section Tests.

Lemma maxEstErrorUs_eq : maxEstErrorUs = 100000000.
Proof. reflexivity. Qed.

(** [Status & staUnsync] is positive exactly when bit 6 of [Status] is
    set, whatever the sign of [Status]. *)
Lemma land_staUnsync (s : Z) :
  Z.land s staUnsync = if Z.testbit s 6 then staUnsync else 0.
Proof.
  apply Z.bits_inj'. intros n Hn.
  rewrite Z.land_spec. change staUnsync with (2 ^ 6).
  rewrite Z.pow2_bits_eqb by lia.
  destruct (6 =? n) eqn:E.
  - apply Z.eqb_eq in E. subst n. rewrite andb_true_r.
    destruct (Z.testbit s 6).
    + symmetry. rewrite Z.pow2_bits_eqb by lia. reflexivity.
    + symmetry. apply Z.bits_0.
  - rewrite andb_false_r.
    destruct (Z.testbit s 6).
    + rewrite Z.pow2_bits_eqb by lia. symmetry. exact E.
    + symmetry. apply Z.bits_0.
Qed.

Lemma unsync_test (s : Z) : (Z.land s staUnsync >? 0) = Z.testbit s 6.
Proof.
  rewrite land_staUnsync. destruct (Z.testbit s 6); reflexivity.
Qed.

(** Inside the band where the subtraction does not wrap. *)
Lemma diff_exact (tBuf : Timex) :
  Int64.min_int + maxEstErrorUs <= Esterror tBuf <= Int64.max_int ->
  diff tBuf = Esterror tBuf - maxEstErrorUs.
Proof.
  rewrite maxEstErrorUs_eq. unfold diff, Int64.sub, Int64.of_Z. intros H.
  rewrite (Int64_wrap_id (Esterror tBuf))
    by (unfold Int64.in_range, Int64.min_int, Int64.max_int in *; lia).
  rewrite maxEstErrorUs_eq. apply Int64_wrap_id.
  unfold Int64.in_range, Int64.min_int, Int64.max_int in *; lia.
Qed.

(** Below it the difference comes back at the top of the range. *)
Lemma diff_wrapped (tBuf : Timex) :
  Int64.min_int <= Esterror tBuf < Int64.min_int + maxEstErrorUs ->
  diff tBuf = Esterror tBuf - maxEstErrorUs + 2 ^ 64.
Proof.
  rewrite maxEstErrorUs_eq. unfold diff, Int64.sub, Int64.of_Z. intros H.
  rewrite (Int64_wrap_id (Esterror tBuf))
    by (unfold Int64.in_range, Int64.min_int, Int64.max_int in *; lia).
  rewrite maxEstErrorUs_eq. apply Int64_wrap_below.
  unfold Int64.min_int in *; lia.
Qed.

Lemma magnitude_not_unsync (d : time.Duration) :
  magnitude_message d <> unsync_message.
Proof. unfold magnitude_message, unsync_message. simpl. discriminate. Qed.

Lemma magnitude_not_synced (d : time.Duration) :
  magnitude_message d <> "Clock is synced".
Proof. unfold magnitude_message. simpl. discriminate. Qed.

(** The product [time.Duration(diff) * time.Microsecond] is the excess in
    nanoseconds exactly as long as that fits an [int64]. *)
Lemma excess_duration_exact (d : Z) :
  0 <= d ->
  (time.mul d time.Microsecond = d * time.Microsecond <-> d <= 9223372036854775).
Proof.
  intros Hd. unfold time.mul, Int64.mul.
  rewrite Int64_wrap_fixpoint.
  change time.Microsecond with 1000.
  unfold Int64.in_range, Int64.min_int, Int64.max_int. lia.
Qed.

End Tests.

Section RunFacts.

Context {context_Context CLIConfigFlags : Type}.
Variables (t : TimeCheck) (ctx : context_Context) (cfg : option CLIConfigFlags).

(** [Run] after a successful acquisition. *)
Lemma Run_acquired (tBuf : Timex) (state : Z) :
  runAdjtimex t zero_Timex = (tBuf, state, None) ->
  Run t ctx cfg =
    if diff tBuf >? 0 then
      (magnitude_message (time.mul (diff tBuf) time.Microsecond),
       statusFailure, None)
    else if Z.testbit (Status tBuf) 6 then
      (unsync_message, statusFailure, None)
    else ("Clock is synced", statusOK, None).
Proof.
  intros H. unfold Run. rewrite H. rewrite unsync_test. reflexivity.
Qed.

(** [Run] after a failed acquisition. *)
Lemma Run_failed (tBuf : Timex) (state : Z) (e : errors.error) :
  runAdjtimex t zero_Timex = (tBuf, state, Some e) ->
  Run t ctx cfg =
    ("", statusUnknown,
     Some (errors.withStack
             (errors.withMessage e "unable to make a system call adjtimex"))).
Proof.
  intros H. unfold Run. rewrite H. reflexivity.
Qed.

End RunFacts.

(** ** The threshold *)

(** C1 (defect of the code).  The claim gives the threshold as 100,000
    microseconds, the "100 millisecond" of the source's comment.  The constant
    is [int64(time.Microsecond * 100000)]: [time.Microsecond] is 1000
    (nanoseconds), so the value compared with the kernel's microseconds is
    100,000,000, a thousand times the documented one. *)
Theorem maxEstErrorUs_value :
  maxEstErrorUs = 100000000
  /\ maxEstErrorUs = 1000 * 100000
  /\ maxEstErrorUs <> 100000.
Proof.
  split; [reflexivity | split; [reflexivity | discriminate]].
Qed.

(** C9 (defect of the code, the same as C1).  With an estimated error of
    200000 microseconds and no status flag, the claim expects Failure with an
    excess of 100ms.  The difference to the constant is negative, the
    magnitude test does not fire and [Run] reports a synced clock.  The last
    part is the message the claim expects, for an excess of 100000
    microseconds. *)
Theorem Run_scenario_B :
  Run (stub (snapshot 200000 0) 0 None) tt (@None unit)
    = ("Clock is synced", statusOK, None)
  /\ diff (snapshot 200000 0) = -99800000
  /\ magnitude_message (time.mul (200000 - 100000) time.Microsecond)
     = "Clock is less stable than allowed. Max estimated error exceeded by: 100ms".
Proof.
  repeat split; vm_compute; reflexivity.
Qed.

(** ** The magnitude test *)

(** C2, as the code has it.  When the estimated error is above the threshold
    [maxEstErrorUs], whatever the status flags, [Run] gives Failure, no error,
    and the magnitude message, which is never the unsync message.  The
    duration printed is the [int64] product of the excess and
    [time.Microsecond]: it is the excess exactly when the excess is at most
    9223372036854775 microseconds. *)
Theorem Run_magnitude_failure :
  forall (A B : Type) (t : TimeCheck) (ctx : A) (cfg : option B)
         (tBuf : Timex) (state : Z),
    runAdjtimex t zero_Timex = (tBuf, state, None) ->
    Int64.in_range (Esterror tBuf) ->
    Esterror tBuf > maxEstErrorUs ->
    let excess := Esterror tBuf - maxEstErrorUs in
    Run t ctx cfg
      = (magnitude_message (time.mul excess time.Microsecond), statusFailure, None)
    /\ fst (fst (Run t ctx cfg)) <> unsync_message
    /\ (time.mul excess time.Microsecond = excess * time.Microsecond
        <-> excess <= 9223372036854775).
Proof.
  intros A B t ctx cfg tBuf state Hrun Hrange Hgt excess.
  assert (Hdiff : diff tBuf = excess).
  { apply diff_exact. unfold Int64.in_range in Hrange.
    rewrite maxEstErrorUs_eq in *. unfold Int64.min_int in *. lia. }
  assert (Hres : Run t ctx cfg
    = (magnitude_message (time.mul excess time.Microsecond), statusFailure, None)).
  { rewrite (Run_acquired t ctx cfg tBuf state Hrun), Hdiff.
    replace (excess >? 0) with true
      by (symmetry; apply Z.gtb_lt; unfold excess; lia).
    reflexivity. }
  split; [exact Hres|]. split.
  - rewrite Hres. apply magnitude_not_unsync.
  - apply excess_duration_exact. unfold excess. lia.
Qed.

Lemma Run_magnitude_failure_witness :
  let t := stub (snapshot 100100500 staUnsync) 0 None in
  Int64.in_range 100100500
  /\ 100100500 > maxEstErrorUs
  /\ Run t tt (@None unit)
     = ("Clock is less stable than allowed. Max estimated error exceeded by: 100.5ms",
        statusFailure, None).
Proof.
  intros t.
  assert (Hr : Int64.in_range 100100500)
    by (unfold Int64.in_range, Int64.min_int, Int64.max_int; lia).
  assert (Hg : 100100500 > maxEstErrorUs) by (rewrite maxEstErrorUs_eq; lia).
  split; [exact Hr|]. split; [exact Hg|].
  exact (proj1 (Run_magnitude_failure unit unit t tt None
                  (snapshot 100100500 staUnsync) 0 eq_refl Hr Hg)).
Defined.

(** C2 as stated fails at the largest estimated error, [2^63 - 1]: the
    excess, 9223372036754775807 microseconds, is beyond what a [Duration]
    holds in nanoseconds; the product wraps and the message reports a
    negative duration in its place. *)
Lemma Run_magnitude_excess_counterexample :
  let tBuf := snapshot Int64.max_int 0 in
  Int64.in_range (Esterror tBuf)
  /\ Esterror tBuf > maxEstErrorUs
  /\ Run (stub tBuf 0 None) tt (@None unit)
     = ("Clock is less stable than allowed. Max estimated error exceeded by: -1m40.000001s",
        statusFailure, None)
  /\ time.mul (Esterror tBuf - maxEstErrorUs) time.Microsecond = -100000001000
  /\ (Esterror tBuf - maxEstErrorUs) * time.Microsecond = 9223372036754775807000
  /\ ~ Int64.in_range ((Esterror tBuf - maxEstErrorUs) * time.Microsecond).
Proof.
  cbv zeta. split; [split; discriminate|].
  split; [reflexivity|].
  split; [vm_compute; reflexivity|].
  split; [reflexivity|].
  split; [reflexivity|].
  intros [_ H]. apply H. reflexivity.
Qed.

(** ** The flag test *)

(** C3, as the code has it.  With the estimated error at most the threshold,
    and not so far below zero that the [int64] subtraction wraps (at least
    [-2^63 + maxEstErrorUs]), and the unsync bit clear, [Run] returns exactly
    ("Clock is synced", OK, nil). *)
Theorem Run_synced :
  forall (A B : Type) (t : TimeCheck) (ctx : A) (cfg : option B)
         (tBuf : Timex) (state : Z),
    runAdjtimex t zero_Timex = (tBuf, state, None) ->
    Int64.min_int + maxEstErrorUs <= Esterror tBuf <= maxEstErrorUs ->
    Z.testbit (Status tBuf) 6 = false ->
    Run t ctx cfg = ("Clock is synced", statusOK, None).
Proof.
  intros A B t ctx cfg tBuf state Hrun Hband Hbit.
  rewrite (Run_acquired t ctx cfg tBuf state Hrun), Hbit.
  rewrite diff_exact
    by (rewrite maxEstErrorUs_eq in *; unfold Int64.max_int; lia).
  replace (Esterror tBuf - maxEstErrorUs >? 0) with false
    by (symmetry; rewrite Z.gtb_ltb; apply Z.ltb_ge; lia).
  reflexivity.
Qed.

Lemma Run_synced_witness :
  let t := stub (snapshot 0 0) 0 None in
  (Int64.min_int + maxEstErrorUs <= 0 <= maxEstErrorUs)
  /\ Z.testbit 0 6 = false
  /\ Run t tt (@None unit) = ("Clock is synced", statusOK, None).
Proof.
  intros t.
  assert (Hb : Int64.min_int + maxEstErrorUs <= 0 <= maxEstErrorUs)
    by (rewrite maxEstErrorUs_eq; unfold Int64.min_int; lia).
  split; [exact Hb|]. split; [reflexivity|].
  exact (Run_synced unit unit t tt None (snapshot 0 0) 0 eq_refl Hb eq_refl).
Defined.

(** C3 as stated fails at the least estimated error, [-2^63], with no flag
    set: the subtraction wraps to a positive difference and [Run] gives the
    magnitude failure. *)
Lemma Run_synced_counterexample :
  let tBuf := snapshot Int64.min_int 0 in
  Int64.in_range (Esterror tBuf)
  /\ Esterror tBuf <= maxEstErrorUs
  /\ Z.testbit (Status tBuf) 6 = false
  /\ Run (stub tBuf 0 None) tt (@None unit)
     = ("Clock is less stable than allowed. Max estimated error exceeded by: -1m40s",
        statusFailure, None)
  /\ Run (stub tBuf 0 None) tt (@None unit) <> ("Clock is synced", statusOK, None).
Proof.
  cbv zeta. split; [split; discriminate|].
  split; [discriminate|].
  split; [reflexivity|].
  split; [vm_compute; reflexivity|].
  vm_compute. discriminate.
Qed.

(** C4, as the code has it.  With the estimated error at most the threshold,
    and at least [-2^63 + maxEstErrorUs], and the unsync bit set, [Run] gives
    Failure with the fixed unsync message and no error. *)
Theorem Run_unsync :
  forall (A B : Type) (t : TimeCheck) (ctx : A) (cfg : option B)
         (tBuf : Timex) (state : Z),
    runAdjtimex t zero_Timex = (tBuf, state, None) ->
    Int64.min_int + maxEstErrorUs <= Esterror tBuf <= maxEstErrorUs ->
    Z.testbit (Status tBuf) 6 = true ->
    Run t ctx cfg
      = ("Clock is out of sync / in unsync state. Must be synchronized for proper operation.",
         statusFailure, None).
Proof.
  intros A B t ctx cfg tBuf state Hrun Hband Hbit.
  rewrite (Run_acquired t ctx cfg tBuf state Hrun), Hbit.
  rewrite diff_exact
    by (rewrite maxEstErrorUs_eq in *; unfold Int64.max_int; lia).
  replace (Esterror tBuf - maxEstErrorUs >? 0) with false
    by (symmetry; rewrite Z.gtb_ltb; apply Z.ltb_ge; lia).
  reflexivity.
Qed.

Lemma Run_unsync_witness :
  let t := stub (snapshot 0 0x0040) 0 None in
  (Int64.min_int + maxEstErrorUs <= 0 <= maxEstErrorUs)
  /\ Z.testbit 0x0040 6 = true
  /\ Run t tt (@None unit) = (unsync_message, statusFailure, None).
Proof.
  intros t.
  assert (Hb : Int64.min_int + maxEstErrorUs <= 0 <= maxEstErrorUs)
    by (rewrite maxEstErrorUs_eq; unfold Int64.min_int; lia).
  split; [exact Hb|]. split; [reflexivity|].
  exact (Run_unsync unit unit t tt None (snapshot 0 0x0040) 0 eq_refl Hb eq_refl).
Defined.

(** C4 as stated fails at the least estimated error, [-2^63], with the
    unsync bit set: the wrapped difference is positive, the magnitude test
    fires first and the unsync message is not returned. *)
Lemma Run_unsync_counterexample :
  let tBuf := snapshot Int64.min_int 0x0040 in
  Int64.in_range (Esterror tBuf)
  /\ Esterror tBuf <= maxEstErrorUs
  /\ Z.testbit (Status tBuf) 6 = true
  /\ Run (stub tBuf 0 None) tt (@None unit)
     = ("Clock is less stable than allowed. Max estimated error exceeded by: -1m40s",
        statusFailure, None)
  /\ fst (fst (Run (stub tBuf 0 None) tt (@None unit))) <> unsync_message.
Proof.
  cbv zeta. split; [split; discriminate|].
  split; [discriminate|].
  split; [reflexivity|].
  split; [vm_compute; reflexivity|].
  vm_compute. discriminate.
Qed.

(** C7, as the code has it.  At an estimated error equal to the threshold the
    difference is zero and the magnitude failure is not triggered (the test is
    strict); the verdict is OK when the unsync bit is clear, and the unsync
    Failure when it is set. *)
Theorem Run_boundary :
  forall (A B : Type) (t : TimeCheck) (ctx : A) (cfg : option B)
         (tBuf : Timex) (state : Z),
    runAdjtimex t zero_Timex = (tBuf, state, None) ->
    Esterror tBuf = maxEstErrorUs ->
    diff tBuf = 0
    /\ (forall d, fst (fst (Run t ctx cfg)) <> magnitude_message d)
    /\ (Z.testbit (Status tBuf) 6 = false ->
        Run t ctx cfg = ("Clock is synced", statusOK, None))
    /\ (Z.testbit (Status tBuf) 6 = true ->
        Run t ctx cfg = (unsync_message, statusFailure, None)).
Proof.
  intros A B t ctx cfg tBuf state Hrun Heq.
  assert (Hdiff : diff tBuf = 0).
  { rewrite diff_exact; [lia|].
    rewrite Heq, maxEstErrorUs_eq. unfold Int64.min_int, Int64.max_int. lia. }
  rewrite (Run_acquired t ctx cfg tBuf state Hrun), Hdiff.
  change (0 >? 0) with false. cbv iota.
  split; [reflexivity|]. split; [|split; intros ->; reflexivity].
  intros d. destruct (Z.testbit (Status tBuf) 6); cbn [fst]; intros E;
    symmetry in E; revert E;
    [apply magnitude_not_unsync | apply magnitude_not_synced].
Qed.

Lemma Run_boundary_witness :
  let t := stub (snapshot 100000000 0) 0 None in
  100000000 = maxEstErrorUs
  /\ Run t tt (@None unit) = ("Clock is synced", statusOK, None).
Proof.
  intros t. split; [reflexivity|].
  exact (proj1 (proj2 (proj2
    (Run_boundary unit unit t tt None (snapshot 100000000 0) 0 eq_refl eq_refl)))
    eq_refl).
Defined.

(** C7 as stated fails when the unsync bit is set: at an estimated error
    equal to the threshold the verdict is then Failure, not OK. *)
Lemma Run_boundary_counterexample :
  let tBuf := snapshot maxEstErrorUs 0x0040 in
  Esterror tBuf = maxEstErrorUs
  /\ Run (stub tBuf 0 None) tt (@None unit) = (unsync_message, statusFailure, None)
  /\ snd (fst (Run (stub tBuf 0 None) tt (@None unit))) <> statusOK.
Proof.
  cbv zeta. split; [reflexivity|]. split; [vm_compute; reflexivity|].
  vm_compute. discriminate.
Qed.

(** ** Negative estimated errors *)

(** C8, as the code has it.  For a negative estimated error the difference
    stays non-positive exactly when the estimated error is at least
    [-2^63 + maxEstErrorUs]; there the difference is the mathematical one, it
    is negative, and [Run] goes on to the flag test. *)
Theorem Run_negative_esterror :
  forall (A B : Type) (t : TimeCheck) (ctx : A) (cfg : option B)
         (tBuf : Timex) (state : Z),
    runAdjtimex t zero_Timex = (tBuf, state, None) ->
    Int64.in_range (Esterror tBuf) ->
    Esterror tBuf < 0 ->
    (diff tBuf <= 0 <-> Int64.min_int + maxEstErrorUs <= Esterror tBuf)
    /\ (Int64.min_int + maxEstErrorUs <= Esterror tBuf ->
        diff tBuf = Esterror tBuf - maxEstErrorUs
        /\ diff tBuf < 0
        /\ Run t ctx cfg
           = if Z.testbit (Status tBuf) 6
             then (unsync_message, statusFailure, None)
             else ("Clock is synced", statusOK, None)).
Proof.
  intros A B t ctx cfg tBuf state Hrun Hrange Hneg.
  unfold Int64.in_range in Hrange.
  assert (Hexact : Int64.min_int + maxEstErrorUs <= Esterror tBuf ->
                   diff tBuf = Esterror tBuf - maxEstErrorUs)
    by (intros; apply diff_exact; lia).
  split; [split|].
  - intros Hle.
    destruct (Z_lt_le_dec (Esterror tBuf) (Int64.min_int + maxEstErrorUs))
      as [Hlow|Hok]; [|exact Hok].
    rewrite diff_wrapped in Hle by lia.
    rewrite maxEstErrorUs_eq in *. unfold Int64.min_int in *. lia.
  - intros Hok. rewrite (Hexact Hok). rewrite maxEstErrorUs_eq. lia.
  - intros Hok. rewrite (Run_acquired t ctx cfg tBuf state Hrun).
    rewrite (Hexact Hok).
    replace (Esterror tBuf - maxEstErrorUs >? 0) with false
      by (symmetry; rewrite Z.gtb_ltb; apply Z.ltb_ge;
          rewrite maxEstErrorUs_eq; lia).
    split; [reflexivity|]. split; [rewrite maxEstErrorUs_eq; lia | reflexivity].
Qed.

Lemma Run_negative_esterror_witness :
  let t := stub (snapshot (-5) 0x0040) 0 None in
  Int64.in_range (-5)
  /\ -5 < 0
  /\ Int64.min_int + maxEstErrorUs <= -5
  /\ diff (snapshot (-5) 0x0040) = -5 - maxEstErrorUs
  /\ diff (snapshot (-5) 0x0040) < 0
  /\ Run t tt (@None unit) = (unsync_message, statusFailure, None).
Proof.
  intros t.
  assert (Hr : Int64.in_range (-5))
    by (unfold Int64.in_range, Int64.min_int, Int64.max_int; lia).
  assert (Hn : -5 < 0) by lia.
  assert (Hb : Int64.min_int + maxEstErrorUs <= -5)
    by (rewrite maxEstErrorUs_eq; unfold Int64.min_int; lia).
  split; [exact Hr|]. split; [exact Hn|]. split; [exact Hb|].
  exact (proj2 (Run_negative_esterror unit unit t tt None
                  (snapshot (-5) 0x0040) 0 eq_refl Hr Hn) Hb).
Defined.

(** C8 as stated fails at the least estimated error, [-2^63]: modulo [2^64]
    the difference is [2^63 - maxEstErrorUs], a positive number, and the
    magnitude failure is returned without a look at the flags. *)
Lemma Run_negative_esterror_counterexample :
  let tBuf := snapshot Int64.min_int 0 in
  Int64.in_range (Esterror tBuf)
  /\ Esterror tBuf < 0
  /\ diff tBuf = 9223372036754775808
  /\ diff tBuf > 0
  /\ Run (stub tBuf 0 None) tt (@None unit)
     = (magnitude_message (time.mul (diff tBuf) time.Microsecond),
        statusFailure, None)
  /\ magnitude_message (time.mul (diff tBuf) time.Microsecond)
     = "Clock is less stable than allowed. Max estimated error exceeded by: -1m40s".
Proof.
  cbv zeta. split; [split; discriminate|].
  split; [reflexivity|].
  split; [reflexivity|].
  split; [reflexivity|].
  split; vm_compute; reflexivity.
Qed.

(** ** Acquisition failure *)

(** C5.  When the acquisition function returns an error, whatever it left in
    the buffer, [Run] returns the empty message, Unknown, and the error
    wrapped by [errors.Wrap]: its text is the label "unable to make a system
    call adjtimex", a colon, and the text of the original error, and its
    cause is the cause of the original error. *)
Theorem Run_acquisition_error :
  forall (A B : Type) (t : TimeCheck) (ctx : A) (cfg : option B)
         (tBuf : Timex) (state : Z) (e : errors.error),
    runAdjtimex t zero_Timex = (tBuf, state, Some e) ->
    exists w : errors.error,
      Run t ctx cfg = ("", statusUnknown, Some w)
      /\ errors.Wrap (Some e) "unable to make a system call adjtimex" = Some w
      /\ errors.Error w
         = "unable to make a system call adjtimex: " ++ errors.Error e
      /\ errors.Cause w = errors.Cause e.
Proof.
  intros A B t ctx cfg tBuf state e Hrun.
  eexists. split; [apply (Run_failed t ctx cfg tBuf state e Hrun)|].
  split; [reflexivity|]. split; reflexivity.
Qed.

Lemma Run_acquisition_error_witness :
  let denied := errors.opaque "permission denied" in
  let t := stub (snapshot 200000000 0x0040) (-1) (Some denied) in
  exists w : errors.error,
    Run t tt (@None unit) = ("", statusUnknown, Some w)
    /\ errors.Wrap (Some denied) "unable to make a system call adjtimex" = Some w
    /\ errors.Error w
       = "unable to make a system call adjtimex: " ++ errors.Error denied
    /\ errors.Cause w = errors.Cause denied.
Proof.
  intros denied t.
  exact (Run_acquisition_error unit unit t tt None
           (snapshot 200000000 0x0040) (-1) denied eq_refl).
Defined.

(** C6.  The error returned by [Run] is non-nil exactly when the verdict is
    Unknown, and it is nil exactly when the acquisition function returned no
    error: both Failure outcomes and the OK outcome come with a nil error. *)
Theorem Run_error_iff_unknown :
  forall (A B : Type) (t : TimeCheck) (ctx : A) (cfg : option B),
    (snd (Run t ctx cfg) <> None <-> snd (fst (Run t ctx cfg)) = statusUnknown)
    /\ (snd (Run t ctx cfg) = None <-> snd (runAdjtimex t zero_Timex) = None).
Proof.
  intros A B t ctx cfg. unfold Run.
  destruct (runAdjtimex t zero_Timex) as [[tBuf state] [e|]]; cbn.
  - split; split; intros; try reflexivity; discriminate.
  - destruct (diff tBuf >? 0); [|destruct (Z.land (Status tBuf) staUnsync >? 0)];
      cbn; (split; split; intros H; try reflexivity; try discriminate;
            exfalso; apply H; reflexivity).
Qed.

(** ** What the result depends on *)

(** C10.  Two calls of [Run] whose acquisition functions return the same
    error and buffers with the same [Esterror] and [Status] return the same
    triple: the check's name, the context, the configuration, the state
    returned by adjtimex and the other fields of the buffer play no part. *)
Theorem Run_depends_only_on_acquisition :
  forall (A1 B1 A2 B2 : Type)
         (t1 t2 : TimeCheck) (ctx1 : A1) (ctx2 : A2)
         (cfg1 : option B1) (cfg2 : option B2)
         (tBuf1 tBuf2 : Timex) (state1 state2 : Z)
         (err1 err2 : option errors.error),
    runAdjtimex t1 zero_Timex = (tBuf1, state1, err1) ->
    runAdjtimex t2 zero_Timex = (tBuf2, state2, err2) ->
    err1 = err2 ->
    Esterror tBuf1 = Esterror tBuf2 ->
    Status tBuf1 = Status tBuf2 ->
    Run t1 ctx1 cfg1 = Run t2 ctx2 cfg2.
Proof.
  intros A1 B1 A2 B2 t1 t2 ctx1 ctx2 cfg1 cfg2 tBuf1 tBuf2 state1 state2
         err1 err2 H1 H2 Herr Hest Hsta.
  subst err2. destruct err1 as [e|].
  - rewrite (Run_failed t1 ctx1 cfg1 tBuf1 state1 e H1).
    rewrite (Run_failed t2 ctx2 cfg2 tBuf2 state2 e H2). reflexivity.
  - rewrite (Run_acquired t1 ctx1 cfg1 tBuf1 state1 H1).
    rewrite (Run_acquired t2 ctx2 cfg2 tBuf2 state2 H2).
    unfold diff. rewrite Hest, Hsta. reflexivity.
Qed.

Lemma Run_depends_only_on_acquisition_witness :
  let tBuf1 := snapshot 100100500 0 in
  let tBuf2 :=
    mkTimex 1 2 3 4 100100500 0 5 6 7 (mkTimeval 8 9) 10 11 12 13 14 15 16 17 18 19 in
  let t1 := stub tBuf1 0 None in
  let t2 := mkTimeCheck "another name" (fun _ => (tBuf2, 5, None)) in
  Esterror tBuf1 = Esterror tBuf2
  /\ Status tBuf1 = Status tBuf2
  /\ Run t1 tt (@None unit) = Run t2 true (Some 7%nat).
Proof.
  intros tBuf1 tBuf2 t1 t2.
  split; [reflexivity|]. split; [reflexivity|].
  exact (Run_depends_only_on_acquisition unit unit bool nat t1 t2 tt true
           None (Some 7%nat) tBuf1 tBuf2 0 5 None None
           eq_refl eq_refl eq_refl eq_refl eq_refl).
Defined.


(** * Further properties of the check *)

(** ** The digits of [fmtInt] *)

Section DigitFacts.

Lemma digit_char_code (d : Z) :
  0 <= d <= 9 -> nat_of_ascii (time.digit_char d) = (Z.to_nat d + 48)%nat.
Proof.
  intros Hd. unfold time.digit_char. apply nat_ascii_embedding. lia.
Qed.

Lemma digit_char_is_digit (d : Z) :
  0 <= d <= 9 -> Digits.is_digit (time.digit_char d) = true.
Proof.
  intros Hd. unfold Digits.is_digit. rewrite digit_char_code by exact Hd.
  apply andb_true_iff. split; apply Nat.leb_le; lia.
Qed.

Lemma digit_char_value (d : Z) :
  0 <= d <= 9 -> Digits.digit_value (time.digit_char d) = d.
Proof.
  intros Hd. unfold Digits.digit_value. rewrite digit_char_code by exact Hd. lia.
Qed.

Lemma all_digits_app (s1 s2 : string) :
  Digits.all_digits (s1 ++ s2) = Digits.all_digits s1 && Digits.all_digits s2.
Proof.
  induction s1 as [|c s1 IH]; simpl; [reflexivity|].
  rewrite IH. apply andb_assoc.
Qed.

Lemma value_from_app (s1 s2 : string) :
  forall acc, Digits.value_from acc (s1 ++ s2)
              = Digits.value_from (Digits.value_from acc s1) s2.
Proof.
  induction s1 as [|c s1 IH]; intros acc; simpl; [reflexivity | apply IH].
Qed.

Lemma append_assoc (s1 s2 s3 : string) : (s1 ++ s2) ++ s3 = s1 ++ (s2 ++ s3).
Proof.
  induction s1 as [|c s1 IH]; simpl; [reflexivity | rewrite IH; reflexivity].
Qed.

(** What [fmtInt] does for a number [v >= 0]: it leaves the buffer as it is
    and puts in front of it a string of decimal digits that reads as [v]. *)
Lemma fmtInt_spec (v : Z) :
  0 <= v ->
  (forall buf, time.fmtInt buf v = time.fmtInt "" v ++ buf)
  /\ Digits.all_digits (time.fmtInt "" v) = true
  /\ Digits.value (time.fmtInt "" v) = v
  /\ time.fmtInt "" v <> "".
Proof.
  intros Hv. generalize Hv. pattern v. apply Z_lt_induction; [|exact Hv].
  clear v Hv. intros v IH Hv.
  destruct (Z.eq_dec v 0) as [->|Hnz].
  { repeat split; try reflexivity. discriminate. }
  assert (Hpos : 0 < v) by lia.
  assert (Hd : 0 <= v mod 10 <= 9) by (pose proof (Z.mod_pos_bound v 10); lia).
  assert (Hq : 0 <= v / 10 < v).
  { split; [apply Z.div_pos; lia | apply Z.div_lt; lia]. }
  destruct (IH (v / 10) Hq (proj1 Hq)) as (IHbuf & IHall & IHval & IHne).
  assert (Hshape : forall buf,
    time.fmtInt buf v
    = (if v / 10 =? 0 then "" else time.fmtInt "" (v / 10))
      ++ String (time.digit_char (v mod 10)) buf).
  { intros buf. rewrite (fmtInt_unfold buf v Hpos). cbv zeta.
    destruct (v / 10 =? 0); [reflexivity | apply IHbuf]. }
  assert (Hall : Digits.all_digits
                   (if v / 10 =? 0 then "" else time.fmtInt "" (v / 10)) = true)
    by (destruct (v / 10 =? 0); [reflexivity | exact IHall]).
  assert (Hval : Digits.value
                   (if v / 10 =? 0 then "" else time.fmtInt "" (v / 10)) = v / 10).
  { destruct (v / 10 =? 0) eqn:E; [|exact IHval].
    apply Z.eqb_eq in E. rewrite E. reflexivity. }
  split; [|split; [|split]].
  - intros buf. rewrite (Hshape buf), (Hshape "").
    rewrite append_assoc. reflexivity.
  - rewrite (Hshape ""), all_digits_app, Hall. simpl.
    rewrite digit_char_is_digit by exact Hd. reflexivity.
  - rewrite (Hshape ""). unfold Digits.value in *.
    rewrite value_from_app, Hval. simpl.
    rewrite digit_char_value by exact Hd.
    pose proof (Z.div_mod v 10). lia.
  - rewrite (Hshape "").
    destruct (if v / 10 =? 0 then "" else time.fmtInt "" (v / 10));
      simpl; discriminate.
Qed.

End DigitFacts.

(** ** The shape of a printed duration *)

Section DurationFacts.

Lemma fmtInt_head (v : Z) :
  0 <= v ->
  exists (c : ascii) (rest : string),
    Digits.is_digit c = true
    /\ forall buf, time.fmtInt buf v = String c (rest ++ buf).
Proof.
  intros Hv. destruct (fmtInt_spec v Hv) as (Hbuf & Hall & _ & Hne).
  destruct (time.fmtInt "" v) as [|c rest] eqn:E; [contradiction|].
  exists c, rest. simpl in Hall. apply andb_true_iff in Hall.
  split; [exact (proj1 Hall)|].
  intros buf. rewrite Hbuf. reflexivity.
Qed.

Lemma fmtFrac_loop_nonneg (prec : nat) :
  forall (buf : string) (v : Z) (print : bool),
    0 <= v -> 0 <= snd (fst (time.fmtFrac_loop prec buf v print)).
Proof.
  induction prec as [|prec IH]; intros buf v print Hv; simpl; [exact Hv|].
  apply IH. apply Z.div_pos; lia.
Qed.

Lemma fmtFrac_nonneg (buf : string) (v : Z) (prec : nat) :
  0 <= v -> 0 <= snd (time.fmtFrac buf v prec).
Proof.
  intros Hv. unfold time.fmtFrac.
  pose proof (fmtFrac_loop_nonneg prec buf v false Hv) as H.
  destruct (time.fmtFrac_loop prec buf v false) as [[b v'] p]. exact H.
Qed.



Lemma Duration_String_negative (d : time.Duration) :
  d < 0 -> exists rest, time.Duration_String d = String "-" rest.
Proof.
  intros Hd. unfold time.Duration_String.
  replace (d <? 0) with true by (symmetry; apply Z.ltb_lt; exact Hd).
  cbv zeta. eexists. reflexivity.
Qed.

Lemma Duration_String_nonnegative (d : time.Duration) :
  0 <= d ->
  exists (c : ascii) (rest : string),
    Digits.is_digit c = true /\ time.Duration_String d = String c rest.
Proof.
  intros Hd. unfold time.Duration_String.
  replace (d <? 0) with false by (symmetry; apply Z.ltb_ge; exact Hd).
  cbv zeta.
  assert (Hu : 0 <= Uint64.of_Z d)
    by (unfold Uint64.of_Z, Uint64.wrap; apply Z.mod_pos_bound; lia).
  generalize dependent (Uint64.of_Z d). intros u Hu.
  destruct (u <? Uint64.of_Z time.Second).
  - destruct (u =? 0); [exists "0"%char, "s"; split; reflexivity|].
    destruct (u <? Uint64.of_Z time.Microsecond);
      [|destruct (u <? Uint64.of_Z time.Millisecond)].
    all: match goal with
         | |- context [time.fmtFrac ?b ?x ?p] =>
             pose proof (fmtFrac_nonneg b x p Hu) as Hv;
             destruct (time.fmtFrac b x p) as [b' u']
         end.
    all: simpl in Hv; destruct (fmtInt_head u' Hv) as (c & rest & Hc & Hs).
    all: exists c; eexists; split; [exact Hc | apply Hs].
  - pose proof (fmtFrac_nonneg "s" u 9 Hu) as Hv.
    destruct (time.fmtFrac "s" u 9) as [b' u']. simpl in Hv.
    assert (Hm : 0 <= u' / 60) by (apply Z.div_pos; lia).
    assert (H60 : 0 <= u' mod 60) by (apply Z.mod_pos_bound; lia).
    assert (Hmm : 0 <= (u' / 60) mod 60) by (apply Z.mod_pos_bound; lia).
    assert (Hh : 0 <= u' / 60 / 60) by (apply Z.div_pos; lia).
    destruct (u' / 60 >? 0); [destruct (u' / 60 / 60 >? 0)|].
    + destruct (fmtInt_head _ Hh) as (c & rest & Hc & Hs).
      exists c; eexists; split; [exact Hc | apply Hs].
    + destruct (fmtInt_head _ Hmm) as (c & rest & Hc & Hs).
      exists c; eexists; split; [exact Hc | apply Hs].
    + destruct (fmtInt_head _ H60) as (c & rest & Hc & Hs).
      exists c; eexists; split; [exact Hc | apply Hs].
Qed.

End DurationFacts.

(** ** When each outcome is produced *)

Lemma magnitude_not_empty (d : time.Duration) : magnitude_message d <> "".
Proof. unfold magnitude_message. simpl. discriminate. Qed.

(** X1.  After a successful acquisition with an [int64] estimated error,
    [Run] returns the magnitude failure exactly when the estimated error is
    above [maxEstErrorUs] or below [-2^63 + maxEstErrorUs] (where the
    subtraction wraps). *)
Theorem Run_magnitude_iff :
  forall (A B : Type) (t : TimeCheck) (ctx : A) (cfg : option B)
         (tBuf : Timex) (state : Z),
    runAdjtimex t zero_Timex = (tBuf, state, None) ->
    Int64.in_range (Esterror tBuf) ->
    ((exists d, Run t ctx cfg = (magnitude_message d, statusFailure, None))
     <-> Esterror tBuf > maxEstErrorUs
         \/ Esterror tBuf < Int64.min_int + maxEstErrorUs).
Proof.
  intros A B t ctx cfg tBuf state Hrun Hrange.
  rewrite (Run_acquired t ctx cfg tBuf state Hrun).
  unfold Int64.in_range in Hrange.
  destruct (Z_lt_le_dec (Esterror tBuf) (Int64.min_int + maxEstErrorUs))
    as [Hlow|Hband].
  - rewrite diff_wrapped by lia.
    replace (Esterror tBuf - maxEstErrorUs + 2 ^ 64 >? 0) with true
      by (symmetry; apply Z.gtb_lt; rewrite maxEstErrorUs_eq in *;
          unfold Int64.min_int in *; lia).
    split; [intros _; right; exact Hlow | intros _; eexists; reflexivity].
  - rewrite diff_exact by lia.
    destruct (Esterror tBuf - maxEstErrorUs >? 0) eqn:Hgt.
    + apply Z.gtb_lt in Hgt.
      split; [intros _; left; lia | intros _; eexists; reflexivity].
    + rewrite Z.gtb_ltb in Hgt. apply Z.ltb_ge in Hgt.
      split; [|intros [H|H]; lia].
      intros [d Hd]. exfalso.
      destruct (Z.testbit (Status tBuf) 6); [|discriminate Hd].
      apply (f_equal (fun r => fst (fst r))) in Hd. cbn [fst] in Hd.
      symmetry in Hd. exact (magnitude_not_unsync d Hd).
Qed.

Lemma Run_magnitude_iff_witness :
  let t := stub (snapshot (-9223372036854775000) 0) 0 None in
  Int64.in_range (-9223372036854775000)
  /\ ((exists d, Run t tt (@None unit) = (magnitude_message d, statusFailure, None))
      <-> -9223372036854775000 > maxEstErrorUs
          \/ -9223372036854775000 < Int64.min_int + maxEstErrorUs).
Proof.
  intros t.
  assert (Hr : Int64.in_range (-9223372036854775000))
    by (unfold Int64.in_range, Int64.min_int, Int64.max_int; lia).
  split; [exact Hr|].
  exact (Run_magnitude_iff unit unit t tt None
           (snapshot (-9223372036854775000) 0) 0 eq_refl Hr).
Defined.

(** X2.  Message and verdict go together in every result of [Run]: the
    verdict is OK exactly with "Clock is synced", Unknown exactly with the
    empty message, and Failure exactly with the unsync message or a magnitude
    message. *)
Theorem Run_message_verdict :
  forall (A B : Type) (t : TimeCheck) (ctx : A) (cfg : option B),
    (snd (fst (Run t ctx cfg)) = statusOK
     <-> fst (fst (Run t ctx cfg)) = "Clock is synced")
    /\ (snd (fst (Run t ctx cfg)) = statusUnknown
        <-> fst (fst (Run t ctx cfg)) = "")
    /\ (snd (fst (Run t ctx cfg)) = statusFailure
        <-> fst (fst (Run t ctx cfg)) = unsync_message
            \/ exists d, fst (fst (Run t ctx cfg)) = magnitude_message d).
Proof.
  intros A B t ctx cfg. unfold Run.
  destruct (runAdjtimex t zero_Timex) as [[tBuf state] [e|]]; cbn.
  - split; [split; discriminate|]. split; [split; reflexivity|].
    split; [discriminate|].
    intros [H|[d H]]; [discriminate H|].
    exfalso. symmetry in H. exact (magnitude_not_empty d H).
  - destruct (diff tBuf >? 0); [|destruct (Z.land (Status tBuf) staUnsync >? 0)]; cbn.
    + split; [split; [discriminate|]|].
      { intros H. exfalso. exact (magnitude_not_synced _ H). }
      split; [split; [discriminate|]|].
      { intros H. exfalso. exact (magnitude_not_empty _ H). }
      split; [intros _; right; eexists; reflexivity | reflexivity].
    + split; [split; discriminate|]. split; [split; discriminate|].
      split; [intros _; left; reflexivity | reflexivity].
    + split; [split; reflexivity|]. split; [split; discriminate|].
      split; [discriminate|].
      intros [H|[d H]]; [discriminate H|].
      exfalso. symmetry in H. exact (magnitude_not_synced d H).
Qed.

(** X3.  Of the status word only bit 6 (0x0040) counts: two successful
    acquisitions with the same estimated error whose status words agree on
    that bit give the same result, whatever the other flags and the sign of
    the word. *)
Theorem Run_status_bit_only :
  forall (A1 B1 A2 B2 : Type) (t1 t2 : TimeCheck) (ctx1 : A1) (ctx2 : A2)
         (cfg1 : option B1) (cfg2 : option B2)
         (tBuf1 tBuf2 : Timex) (state1 state2 : Z),
    runAdjtimex t1 zero_Timex = (tBuf1, state1, None) ->
    runAdjtimex t2 zero_Timex = (tBuf2, state2, None) ->
    Esterror tBuf1 = Esterror tBuf2 ->
    Z.testbit (Status tBuf1) 6 = Z.testbit (Status tBuf2) 6 ->
    Run t1 ctx1 cfg1 = Run t2 ctx2 cfg2.
Proof.
  intros A1 B1 A2 B2 t1 t2 ctx1 ctx2 cfg1 cfg2 tBuf1 tBuf2 state1 state2
         H1 H2 Hest Hbit.
  rewrite (Run_acquired t1 ctx1 cfg1 tBuf1 state1 H1).
  rewrite (Run_acquired t2 ctx2 cfg2 tBuf2 state2 H2).
  unfold diff. rewrite Hest, Hbit. reflexivity.
Qed.

Lemma Run_status_bit_only_witness :
  let t1 := stub (snapshot 7 0x0040) 0 None in
  let t2 := stub (snapshot 7 (-1)) 5 None in
  Z.testbit 0x0040 6 = Z.testbit (-1) 6
  /\ Run t1 tt (@None unit) = Run t2 tt (@None unit).
Proof.
  intros t1 t2. split; [reflexivity|].
  exact (Run_status_bit_only unit unit unit unit t1 t2 tt tt None None
           (snapshot 7 0x0040) (snapshot 7 (-1)) 0 5
           eq_refl eq_refl eq_refl eq_refl).
Defined.

(** X4.  Where the subtraction does not wrap, the check is monotone in the
    estimated error: with the same unsync bit, if a snapshot fails then every
    snapshot with a larger estimated error fails too. *)
Theorem Run_monotone :
  forall (A B : Type) (t1 t2 : TimeCheck) (ctx : A) (cfg : option B)
         (tBuf1 tBuf2 : Timex) (state1 state2 : Z),
    runAdjtimex t1 zero_Timex = (tBuf1, state1, None) ->
    runAdjtimex t2 zero_Timex = (tBuf2, state2, None) ->
    Z.testbit (Status tBuf1) 6 = Z.testbit (Status tBuf2) 6 ->
    Int64.min_int + maxEstErrorUs <= Esterror tBuf1 ->
    Esterror tBuf1 <= Esterror tBuf2 ->
    Esterror tBuf2 <= Int64.max_int ->
    snd (fst (Run t1 ctx cfg)) = statusFailure ->
    snd (fst (Run t2 ctx cfg)) = statusFailure.
Proof.
  intros A B t1 t2 ctx cfg tBuf1 tBuf2 state1 state2 H1 H2 Hbit Hlo Hle Hhi.
  rewrite (Run_acquired t1 ctx cfg tBuf1 state1 H1).
  rewrite (Run_acquired t2 ctx cfg tBuf2 state2 H2).
  rewrite !diff_exact by lia. rewrite <- Hbit.
  destruct (Esterror tBuf2 - maxEstErrorUs >? 0) eqn:G2; [reflexivity|].
  destruct (Esterror tBuf1 - maxEstErrorUs >? 0) eqn:G1.
  - apply Z.gtb_lt in G1. rewrite Z.gtb_ltb in G2. apply Z.ltb_ge in G2. lia.
  - destruct (Z.testbit (Status tBuf1) 6); [reflexivity | discriminate].
Qed.

Lemma Run_monotone_witness :
  let t1 := stub (snapshot 100000001 0) 0 None in
  let t2 := stub (snapshot 100000002 0) 0 None in
  snd (fst (Run t1 tt (@None unit))) = statusFailure
  /\ snd (fst (Run t2 tt (@None unit))) = statusFailure.
Proof.
  intros t1 t2.
  assert (H1 : snd (fst (Run t1 tt (@None unit))) = statusFailure) by reflexivity.
  split; [exact H1|].
  refine (Run_monotone unit unit t1 t2 tt None
            (snapshot 100000001 0) (snapshot 100000002 0) 0 0
            eq_refl eq_refl eq_refl _ _ _ H1).
  - rewrite maxEstErrorUs_eq. unfold Int64.min_int. simpl. lia.
  - simpl. lia.
  - unfold Int64.max_int. simpl. lia.
Defined.

(** X5.  A check made by [NewTimeCheck] has the given name as its ID, and
    [Run] asks the system call about a zeroed buffer and nothing else: two
    system calls that answer alike on the zeroed buffer (mode word 0, a pure
    query) give the same result under any names. *)
Theorem NewTimeCheck_Run :
  forall (A B : Type) (k1 k2 : Timex -> Timex * Z * option errors.error)
         (name1 name2 : string) (ctx : A) (cfg : option B),
    k1 zero_Timex = k2 zero_Timex ->
    ID (NewTimeCheck k1 name1) = name1
    /\ Modes zero_Timex = 0
    /\ Run (NewTimeCheck k1 name1) ctx cfg = Run (NewTimeCheck k2 name2) ctx cfg.
Proof.
  intros A B k1 k2 name1 name2 ctx cfg Hk.
  split; [reflexivity|]. split; [reflexivity|].
  unfold Run, NewTimeCheck. cbn [runAdjtimex]. rewrite Hk. reflexivity.
Qed.

Lemma NewTimeCheck_Run_witness :
  let k1 := fun b : Timex => (snapshot (Modes b) 0, 0, @None errors.error) in
  let k2 := fun b : Timex => (snapshot 0 (Offset b), 0, @None errors.error) in
  k1 zero_Timex = k2 zero_Timex
  /\ ID (NewTimeCheck k1 "a") = "a"
  /\ Modes zero_Timex = 0
  /\ Run (NewTimeCheck k1 "a") tt (@None unit)
     = Run (NewTimeCheck k2 "b") tt (@None unit).
Proof.
  intros k1 k2. split; [reflexivity|].
  exact (NewTimeCheck_Run unit unit k1 k2 "a" "b" tt None eq_refl).
Defined.

(** ** Durations that are whole numbers of a unit *)

Section RoundDurations.






End RoundDurations.

(** ** The band without wrap-around *)

(** X6.  For an estimated error from [-2^63 + maxEstErrorUs] up to
    [maxEstErrorUs + 9223372036854775], and so for every 32-bit estimated
    error widened by [int64(...)], no operation of [Run] wraps: the result is
    the one unbounded arithmetic gives, with the excess in nanoseconds as the
    duration printed. *)
Theorem Run_exact_band :
  forall (A B : Type) (t : TimeCheck) (ctx : A) (cfg : option B)
         (tBuf : Timex) (state : Z),
    runAdjtimex t zero_Timex = (tBuf, state, None) ->
    (Int64.min_int + maxEstErrorUs <= Esterror tBuf
       <= maxEstErrorUs + 9223372036854775
     \/ - 2 ^ 31 <= Esterror tBuf < 2 ^ 31) ->
    Run t ctx cfg =
      if Esterror tBuf >? maxEstErrorUs then
        (magnitude_message ((Esterror tBuf - maxEstErrorUs) * 1000),
         statusFailure, None)
      else if Z.testbit (Status tBuf) 6 then
        (unsync_message, statusFailure, None)
      else ("Clock is synced", statusOK, None).
Proof.
  intros A B t ctx cfg tBuf state Hrun Hband.
  assert (Hb : Int64.min_int + maxEstErrorUs <= Esterror tBuf
               <= maxEstErrorUs + 9223372036854775)
    by (rewrite maxEstErrorUs_eq in *; unfold Int64.min_int in *; lia).
  clear Hband.
  rewrite (Run_acquired t ctx cfg tBuf state Hrun).
  rewrite diff_exact
    by (rewrite maxEstErrorUs_eq in *; unfold Int64.min_int, Int64.max_int in *; lia).
  replace (Esterror tBuf - maxEstErrorUs >? 0) with (Esterror tBuf >? maxEstErrorUs)
    by (rewrite !Z.gtb_ltb;
        destruct (Z.ltb_spec maxEstErrorUs (Esterror tBuf));
        destruct (Z.ltb_spec 0 (Esterror tBuf - maxEstErrorUs)); lia).
  destruct (Esterror tBuf >? maxEstErrorUs) eqn:Hgt; [|reflexivity].
  apply Z.gtb_lt in Hgt.
  assert (Hex : time.mul (Esterror tBuf - maxEstErrorUs) time.Microsecond
                = (Esterror tBuf - maxEstErrorUs) * 1000).
  { apply (excess_duration_exact (Esterror tBuf - maxEstErrorUs)); lia. }
  rewrite Hex. reflexivity.
Qed.

Lemma Run_exact_band_witness :
  let t := stub (snapshot 2147483647 0) 0 None in
  (Int64.min_int + maxEstErrorUs <= 2147483647 <= maxEstErrorUs + 9223372036854775
   \/ - 2 ^ 31 <= 2147483647 < 2 ^ 31)
  /\ Run t tt (@None unit)
     = ("Clock is less stable than allowed. Max estimated error exceeded by: 34m7.483647s",
        statusFailure, None).
Proof.
  intros t.
  assert (Hb : Int64.min_int + maxEstErrorUs <= 2147483647
                 <= maxEstErrorUs + 9223372036854775
               \/ - 2 ^ 31 <= 2147483647 < 2 ^ 31) by (right; lia).
  split; [exact Hb|].
  exact (Run_exact_band unit unit t tt None (snapshot 2147483647 0) 0 eq_refl Hb).
Defined.

(** ** What the magnitude message shows *)

(** X7.  In a magnitude failure the duration after the colon starts with a
    minus sign when the [int64] product of the excess and [time.Microsecond]
    is negative, and with a decimal digit otherwise; up to an excess of
    9223372036854775 microseconds the product is positive, so a minus sign
    only appears after an overflow. *)
Theorem Run_excess_sign :
  forall (A B : Type) (t : TimeCheck) (ctx : A) (cfg : option B)
         (tBuf : Timex) (state : Z),
    runAdjtimex t zero_Timex = (tBuf, state, None) ->
    Int64.in_range (Esterror tBuf) ->
    Esterror tBuf > maxEstErrorUs ->
    let excess := Esterror tBuf - maxEstErrorUs in
    let shown := time.mul excess time.Microsecond in
    (shown < 0 ->
       exists rest,
         fst (fst (Run t ctx cfg))
         = "Clock is less stable than allowed. Max estimated error exceeded by: "
             ++ String "-" rest)
    /\ (0 <= shown ->
          exists c rest,
            Digits.is_digit c = true
            /\ fst (fst (Run t ctx cfg))
               = "Clock is less stable than allowed. Max estimated error exceeded by: "
                   ++ String c rest)
    /\ (excess <= 9223372036854775 -> 0 < shown).
Proof.
  intros A B t ctx cfg tBuf state Hrun Hrange Hgt excess shown.
  assert (Hdiff : diff tBuf = excess).
  { apply diff_exact. unfold Int64.in_range in Hrange.
    rewrite maxEstErrorUs_eq in *. unfold Int64.min_int in *. lia. }
  assert (Hmsg : fst (fst (Run t ctx cfg)) = magnitude_message shown).
  { rewrite (Run_acquired t ctx cfg tBuf state Hrun), Hdiff.
    replace (excess >? 0) with true
      by (symmetry; apply Z.gtb_lt; unfold excess; lia).
    reflexivity. }
  rewrite Hmsg. unfold magnitude_message.
  split; [|split].
  - intros Hneg. destruct (Duration_String_negative shown Hneg) as [rest Hs].
    exists rest. rewrite Hs. reflexivity.
  - intros Hpos.
    destruct (Duration_String_nonnegative shown Hpos) as (c & rest & Hc & Hs).
    exists c, rest. rewrite Hs. split; [exact Hc | reflexivity].
  - intros Hsmall.
    assert (Hex : shown = excess * time.Microsecond)
      by (apply excess_duration_exact; unfold excess in *; lia).
    rewrite Hex. change time.Microsecond with 1000. unfold excess. lia.
Qed.

Lemma Run_excess_sign_witness :
  let t := stub (snapshot 100000007 0) 0 None in
  Int64.in_range 100000007
  /\ 100000007 > maxEstErrorUs
  /\ 100000007 - maxEstErrorUs <= 9223372036854775
  /\ 0 < time.mul (100000007 - maxEstErrorUs) time.Microsecond.
Proof.
  intros t.
  assert (Hr : Int64.in_range 100000007)
    by (unfold Int64.in_range, Int64.min_int, Int64.max_int; lia).
  assert (Hg : 100000007 > maxEstErrorUs) by (rewrite maxEstErrorUs_eq; lia).
  assert (Hs : 100000007 - maxEstErrorUs <= 9223372036854775)
    by (rewrite maxEstErrorUs_eq; lia).
  split; [exact Hr|]. split; [exact Hg|]. split; [exact Hs|].
  exact (proj2 (proj2 (Run_excess_sign unit unit t tt None
                         (snapshot 100000007 0) 0 eq_refl Hr Hg)) Hs).
Defined.


